(** * StrellerMinds analytics SDK: the Python [AnalyticsClient]

    A shallow embedding of [sdks/python/src/strellerminds_sdk/client.py]
    and the properties of its three public methods and its constructor.

    The class keeps three fields, prints one message from
    [record_session] and otherwise only assembles values from constants
    and arguments.
    Python values are an inductive type, dictionaries are finite maps
    keyed by strings, and methods run in a state-and-exception monad
    whose state holds the instance ([self]) and the outside world
    (the text written to standard output and the calls made into
    [stellar_sdk]). *)

From Stdlib Require Import Floats.
From stdpp Require Import gmap strings list fin_maps pretty.

#[local] Set Warnings "-register-all".

Local Open Scope Z_scope.
Local Open Scope string_scope.

(* ===================================================================== *)
(** * Python values *)
(* ===================================================================== *)

(** The values the client receives and returns.  A [dict] is a finite map
    with string keys; its values are again Python values. *)
Inductive pyval : Type :=
| PyNone
| PyBool (b : bool)
| PyInt (n : Z)
| PyFloat (x : float)
| PyStr (s : string)
| PyList (xs : list pyval)
| PyDict (d : gmap string pyval).

Abbreviation dict := (gmap string pyval).

(** A raised exception: the name of its class and its message. *)
Record exn : Type := Raise { exn_class : string; exn_msg : string }.

Definition type_name (v : pyval) : string :=
  match v with
  | PyNone => "NoneType"
  | PyBool _ => "bool"
  | PyInt _ => "int"
  | PyFloat _ => "float"
  | PyStr _ => "str"
  | PyList _ => "list"
  | PyDict _ => "dict"
  end.


(** [obj[key]] with a string key: defined on dictionaries, where a missing
    key raises [KeyError]; a [TypeError] on every other built-in value. *)
Definition getitem (v : pyval) (key : string) : exn + pyval :=
  match v with
  | PyDict d =>
      match d !! key with
      | Some x => inr x
      | None => inl (Raise "KeyError" key)
      end
  | _ => inl (Raise "TypeError" (type_name v))
  end.

(* ===================================================================== *)
(** * The monad of method bodies *)
(* ===================================================================== *)

(** A computation over a state [S] either returns a value or raises, and
    in both cases leaves a state behind (effects done before a [raise]
    stay done). *)
Definition Py (S A : Type) : Type := S → (exn + A) * S.

#[export] Instance Py_ret {S} : MRet (Py S) :=
  λ A (x : A) st, (inr x, st).

#[export] Instance Py_bind {S} : MBind (Py S) :=
  λ A B (k : A → Py S B) (m : Py S A) st,
    match m st with
    | (inr x, st') => k x st'
    | (inl e, st') => (inl e, st')
    end.

Definition raise {S A} (e : exn) : Py S A := λ st, (inl e, st).

(** The result of a pure operation that may fail, as a computation. *)
Definition lift_result {S A} (r : exn + A) : Py S A :=
  match r with
  | inr x => mret x
  | inl e => raise e
  end.

Definition gets {S A} (f : S → A) : Py S A := λ st, (inr (f st), st).

Definition modify {S} (f : S → S) : Py S unit := λ st, (inr tt, f st).

(** The outcome and the final state of a run. *)
Definition outcome {S A} (m : Py S A) (st : S) : exn + A := fst (m st).
Definition final {S A} (m : Py S A) (st : S) : S := snd (m st).

Definition succeeds {S A} (m : Py S A) (st : S) : bool :=
  match outcome m st with inr _ => true | inl _ => false end.

Definition returns {S A} (m : Py S A) (st : S) (v : A) : Prop :=
  outcome m st = inr v.

Definition raises {S A} (m : Py S A) (st : S) (cls : string) : Prop :=
  ∃ msg, outcome m st = inl (Raise cls msg).

(* ===================================================================== *)
(** * The world outside the client *)
(* ===================================================================== *)

(** The four names the module imports from [stellar_sdk]. *)
Inductive sdk_class : Type :=
| cls_Server
| cls_Keypair
| cls_TransactionBuilder
| cls_Network.

(** One use of an imported class: the class, the member called
    ([__init__] for a construction) and the arguments. *)
Record sdk_call : Type := SdkCall {
  callee : sdk_class;
  member : string;
  call_args : list pyval
}.

(** What a method can affect beyond its own instance: the characters
    written to standard output so far, and the calls made into
    [stellar_sdk], which are the only road from this module to the
    ledger. *)
Record World : Type := mkWorld {
  stdout : string;
  sdk_calls : list sdk_call
}.

Definition empty_world : World := mkWorld "" [].

(** The line feed that ends what [print] writes. *)
Definition newline : string := String (Ascii.ascii_of_nat 10) "".

(** [sys.stdout.write(text)] *)
Definition write_text (text : string) (w : World) : World :=
  mkWorld (stdout w +:+ text) (sdk_calls w).

Definition log_call (c : sdk_call) (w : World) : World :=
  mkWorld (stdout w) (sdk_calls w ++ [c])%list.

(* ===================================================================== *)
(** * class AnalyticsClient *)
(* ===================================================================== *)

Section AnalyticsClient.

(** [stellar_sdk.Server] is not part of this repository.  Its handle type
    and the outcome of its constructor on a URL are parameters, and so is
    Python's own rendering of a dictionary inside an f-string, which
    either gives the text or raises (as [str] does on an integer of more
    than 4300 digits). *)
Context {ServerT : Type}.
Variable Server : string → exn + ServerT.
Variable str_of_dict : dict → exn + string.

(** The instance attributes set by [__init__]. *)
Record AnalyticsClient : Type := mkClient {
  contract_id : string;
  server : ServerT;
  network_passphrase : string
}.

(** The state a method runs in: the instance it is called on and the
    world. *)
Record State : Type := mkState {
  self : AnalyticsClient;
  world : World
}.

(** [print(text)]: the text, then a line feed. *)
Definition print (text : string) : Py State unit :=
  modify (λ st, mkState (self st) (write_text (text +:+ newline) (world st))).

(** [def __init__(self, contract_id, rpc_url, network_passphrase)] *)
Definition __init__ (contract_id rpc_url network_passphrase : string)
  : Py World AnalyticsClient :=
  modify (log_call (SdkCall cls_Server "__init__" [PyStr rpc_url])) ;;
  s ← lift_result (Server rpc_url) ;
  mret (mkClient contract_id s network_passphrase).

(** [def record_session(self, session_data, source_secret)] *)
Definition record_session (session_data : dict) (source_secret : string)
  : Py State pyval :=
  cid ← gets (λ st, contract_id (self st)) ;
  rendered ← lift_result (str_of_dict session_data) ;
  print ("Recording session for contract " +:+ cid +:+ ": " +:+ rendered) ;;
  mret (PyStr "tx_hash_placeholder").

(** [def get_session(self, session_id)] *)
Definition get_session (session_id : string) : Py State pyval :=
  mret (PyDict (<["id" := PyStr session_id]>
                 (<["status" := PyStr "completed"]> ∅))).

(** [def get_student_progress(self, student_address, course_id)] *)
Definition get_student_progress (student_address course_id : string)
  : Py State pyval :=
  mret (PyDict (<["student" := PyStr student_address]>
                 (<["course" := PyStr course_id]>
                   (<["progress" := PyInt 100]> ∅)))).

(** What [record_session] writes when called in a given state with
    session data that render as the given text. *)
Definition recording_text (st : State) (rendered : string) : string :=
  ("Recording session for contract " +:+ contract_id (self st) +:+ ": "
     +:+ rendered) +:+ newline.



End AnalyticsClient.

Arguments AnalyticsClient : clear implicits.
Arguments State : clear implicits.

(* ===================================================================== *)
(** * An instance of the parameters *)
(* ===================================================================== *)

(** A server handle that only remembers its URL, built by a constructor
    that opens no connection and never raises.  It serves to run the
    model on concrete inputs; the theorems hold for every constructor. *)
Record Horizon : Type := mkHorizon { horizon_url : string }.

Definition horizon_Server (rpc_url : string) : exn + Horizon :=
  inr (mkHorizon rpc_url).

(** [str] of an integer: its decimal digits, and [ValueError] when
    there are more than 4300 of them. *)
Definition max_str_digits : Z := 4300.

Definition int_str (n : Z) : exn + string :=
  if decide (Z.abs n < 10 ^ max_str_digits)%Z then inr (pretty n)
  else inl (Raise "ValueError"
              "Exceeds the limit (4300 digits) for integer string conversion").

(** A float as text.  [nan], the infinities and the zeros are written as
    Python writes them; any other float is written by its exact value, a
    mantissa times a power of two, and not by the shortest decimal that
    Python prints.  A float never fails to render. *)
Definition float_str (x : float) : string :=
  match Prim2SF x with
  | S754_nan => "nan"
  | S754_infinity false => "inf"
  | S754_infinity true => "-inf"
  | S754_zero false => "0.0"
  | S754_zero true => "-0.0"
  | S754_finite sign m e =>
      (if sign then "-" else "") +:+ pretty (Z.pos m) +:+ "*2**" +:+ pretty e
  end.

(** One more rendered item, unless it or an earlier one raised. *)
Definition and_then (items : exn + list string) (item : exn + string)
  : exn + list string :=
  match items, item with
  | inl e, _ => inl e
  | inr _, inl e => inl e
  | inr l, inr s => inr (l ++ [s])%list
  end.

(** A rendering of values in the manner of [repr]: quoted strings,
    decimal integers, entries of a dictionary in the traversal order of
    the map; the first item that fails to render makes the whole
    rendering raise. *)
Fixpoint py_repr (v : pyval) : exn + string :=
  match v with
  | PyNone => inr "None"
  | PyBool true => inr "True"
  | PyBool false => inr "False"
  | PyInt n => int_str n
  | PyFloat x => inr (float_str x)
  | PyStr s => inr ("'" +:+ s +:+ "'")
  | PyList xs =>
      match foldl (λ items x, and_then items (py_repr x)) (inr []) xs with
      | inr items => inr ("[" +:+ String.concat ", " items +:+ "]")
      | inl e => inl e
      end
  | PyDict d =>
      match map_fold (λ k x items,
                and_then items
                  (match py_repr x with
                   | inr s => inr ("'" +:+ k +:+ "': " +:+ s)
                   | inl e => inl e
                   end)) (inr []) d with
      | inr items => inr ("{" +:+ String.concat ", " items +:+ "}")
      | inl e => inl e
      end
  end.

Definition repr_dict (d : dict) : exn + string := py_repr (PyDict d).

(** The client of the usage scenario: contract id [C123] on the public
    test network, and the state right after its construction. *)
Definition demo_client : AnalyticsClient Horizon :=
  mkClient "C123" (mkHorizon "https://soroban-testnet.stellar.org")
           "Test SDF Network ; September 2015".

Definition demo_state : State Horizon := mkState demo_client empty_world.

Definition demo_payload : dict := {["duration_s" := PyInt 300]}.




(* ===================================================================== *)
(** * The design the specification describes *)
(* ===================================================================== *)

(** The definitions of this module follow the words of the specification,
    not the source: a ledger of stored records, a zero-valued progress
    summary, a ratio in the unit interval, and a configuration check
    against the network an endpoint reports.  They are what the source's
    methods are compared with. *)
Module Spec.

(** The ledger: session id to stored record. *)
Abbreviation Ledger := (gmap string pyval).

(** [get_session(id)]: the stored record, [NotFound] when there is none. *)
Definition lookup_session (ledger : Ledger) (id : string) : exn + pyval :=
  match ledger !! id with
  | Some record => inr record
  | None => inl (Raise "NotFound" id)
  end.

(** The [ProgressSummary] of a pair without sessions. *)
Definition zero_summary (student_address course_id : string) : dict :=
  <["student_address" := PyStr student_address]>
    (<["course_id" := PyStr course_id]>
      (<["completion_ratio" := PyInt 0]> ∅)).

(** A number in the closed interval from 0 to 1: an integer or a
    float. *)
Definition unit_interval (v : pyval) : Prop :=
  (∃ n, v = PyInt n ∧ (0 ≤ n ≤ 1)%Z)
  ∨ (∃ x, v = PyFloat x ∧ (0 <=? x)%float = true ∧ (x <=? 1)%float = true).

(** The reachable endpoints, each with the network passphrase it
    reports. *)
Abbreviation Network := (gmap string string).

(** Validation at construction: [ConfigError] when the endpoint is
    unreachable or reports another network. *)
Definition validate_config (net : Network) (rpc_url passphrase : string)
  : option exn :=
  match net !! rpc_url with
  | None => Some (Raise "ConfigError" "endpoint unreachable")
  | Some reported =>
      if decide (reported = passphrase) then None
      else Some (Raise "ConfigError" "network passphrase mismatch")
  end.

End Spec.

(** The test network as the only reachable endpoint. *)
Definition testnet_url : string := "https://soroban-testnet.stellar.org".
Definition testnet_passphrase : string := "Test SDF Network ; September 2015".
Definition pubnet_passphrase : string :=
  "Public Global Stellar Network ; September 2015".

Definition testnet_only : Spec.Network := {[testnet_url := testnet_passphrase]}.

(* ===================================================================== *)
(** * Sequences of calls on one instance *)
(* ===================================================================== *)

(** One call of a public method, with its arguments. *)
Inductive call : Type :=
| CallRecordSession (session_data : dict) (source_secret : string)
| CallGetSession (session_id : string)
| CallGetStudentProgress (student_address course_id : string).

(** The same call with the secret blanked out. *)
Definition erase_secret (c : call) : call :=
  match c with
  | CallRecordSession session_data _ => CallRecordSession session_data ""
  | _ => c
  end.

Section Calls.

Context {ServerT : Type}.
Variable str_of_dict : dict → exn + string.

(** [client.method(args)] for the method and arguments of a call. *)
Definition invoke (c : call) : Py (State ServerT) pyval :=
  match c with
  | CallRecordSession session_data source_secret =>
      record_session str_of_dict session_data source_secret
  | CallGetSession session_id => get_session session_id
  | CallGetStudentProgress student_address course_id =>
      get_student_progress student_address course_id
  end.

(** The calls of a list made one after the other on the same instance,
    collecting what each returns; the first exception ends the run. *)
Fixpoint run_calls (cs : list call) : Py (State ServerT) (list pyval) :=
  match cs with
  | [] => mret []
  | c :: cs' =>
      v ← invoke c ;
      vs ← run_calls cs' ;
      mret (v :: vs)
  end.

(** A call whose arguments can be rendered where the method renders
    them: only [record_session] renders one. *)
Definition renders (c : call) : bool :=
  match c with
  | CallRecordSession session_data _ =>
      match str_of_dict session_data with inr _ => true | inl _ => false end
  | _ => true
  end.

(** The calls of a list that are carried out: all those before the first
    one that does not render. *)
Fixpoint completed (cs : list call) : list call :=
  match cs with
  | [] => []
  | c :: cs' => if renders c then c :: completed cs' else []
  end.

(** What one call writes to standard output in a given state. *)
Definition written (st : State ServerT) (c : call) : string :=
  match c with
  | CallRecordSession session_data _ =>
      match str_of_dict session_data with
      | inr rendered => recording_text st rendered
      | inl _ => ""
      end
  | _ => ""
  end.

(** What a list of calls writes when it starts in a given state: the
    texts of the calls carried out, in call order. *)
Definition printed (st : State ServerT) (cs : list call) : string :=
  foldr (λ c rest, written st c +:+ rest) "" (completed cs).

Definition is_record_session (c : call) : bool :=
  match c with
  | CallRecordSession _ _ => true
  | _ => false
  end.

End Calls.

(* ===================================================================== *)
(** * Running the methods *)
(* ===================================================================== *)

(** Appending texts. *)
Lemma text_app_nil_r (s : string) : s +:+ "" = s.
Proof.
  induction s as [|a s IH]; [done|].
  change (String a (s +:+ "") = String a s). by rewrite IH.
Qed.

Lemma text_app_assoc (s1 s2 s3 : string) :
  (s1 +:+ s2) +:+ s3 = s1 +:+ (s2 +:+ s3).
Proof.
  induction s1 as [|a s1 IH]; [done|].
  change (String a ((s1 +:+ s2) +:+ s3) = String a (s1 +:+ (s2 +:+ s3))).
  by rewrite IH.
Qed.

Section Properties.

Context {ServerT : Type}.
Variable Server : string → exn + ServerT.
Variable str_of_dict : dict → exn + string.

Implicit Types (st : State ServerT) (w : World).
Implicit Types (session_data payload : dict).
Implicit Types (session_id source_secret student_address course_id : string).

(** Each method body run once: the value returned and the state left. *)
Lemma record_session_run st session_data source_secret :
  record_session str_of_dict session_data source_secret st =
    match str_of_dict session_data with
    | inr rendered =>
        (inr (PyStr "tx_hash_placeholder"),
         mkState (self st) (write_text (recording_text st rendered) (world st)))
    | inl e => (inl e, st)
    end.
Proof.
  unfold record_session, mbind, Py_bind, gets, lift_result. cbn.
  by destruct (str_of_dict session_data).
Qed.

Lemma get_session_run st session_id :
  get_session session_id st =
    (inr (PyDict (<["id" := PyStr session_id]>
                   (<["status" := PyStr "completed"]> ∅))), st).
Proof. reflexivity. Qed.

Lemma get_student_progress_run st student_address course_id :
  get_student_progress student_address course_id st =
    (inr (PyDict (<["student" := PyStr student_address]>
                   (<["course" := PyStr course_id]>
                     (<["progress" := PyInt 100]> ∅)))), st).
Proof. reflexivity. Qed.

Lemma init_run cid rpc_url passphrase w :
  __init__ Server cid rpc_url passphrase w =
    (match Server rpc_url with
     | inr s => inr (mkClient cid s passphrase)
     | inl e => inl e
     end,
     log_call (SdkCall cls_Server "__init__" [PyStr rpc_url]) w).
Proof.
  unfold __init__, mbind, Py_bind, modify, lift_result, mret, Py_ret.
  by destruct (Server rpc_url).
Qed.


(** A run that returns raises nothing, and conversely. *)
Lemma returns_not_raises {S A} (m : Py S A) (s : S) (v : A) (cls : string) :
  returns m s v → ¬ raises m s cls.
Proof. unfold returns, raises. intros -> [msg Hmsg]. discriminate. Qed.

Lemma raises_not_returns {S A} (m : Py S A) (s : S) (v : A) (cls : string) :
  raises m s cls → ¬ returns m s v.
Proof. intros Hr Hv. by eapply returns_not_raises. Qed.

(** Lookups in the two dictionaries the queries build. *)
Lemma session_dict_lookup session_id (key : string) :
  (<["id" := PyStr session_id]> (<["status" := PyStr "completed"]> ∅) : dict)
    !! key =
  if decide (key = "id") then Some (PyStr session_id)
  else if decide (key = "status") then Some (PyStr "completed")
  else None.
Proof.
  repeat case_decide; subst; simplify_map_eq; done.
Qed.

Lemma progress_dict_lookup student_address course_id (key : string) :
  (<["student" := PyStr student_address]>
     (<["course" := PyStr course_id]>
       (<["progress" := PyInt 100]> ∅)) : dict) !! key =
  if decide (key = "student") then Some (PyStr student_address)
  else if decide (key = "course") then Some (PyStr course_id)
  else if decide (key = "progress") then Some (PyInt 100)
  else None.
Proof.
  repeat case_decide; subst; simplify_map_eq; done.
Qed.

(* ===================================================================== *)
(** * The methods as the source has them *)
(* ===================================================================== *)


(** C6. [get_session] and [get_student_progress] return dictionaries
    assembled from constants and the call's own arguments: the run
    leaves the whole state as it found it (nothing is written), and the
    value returned is the same in every state (nothing is read). *)
Theorem queries_touch_no_stored_state st session_id student_address course_id :
  get_session session_id st
  = (inr (PyDict (<["id" := PyStr session_id]>
                   (<["status" := PyStr "completed"]> ∅))), st)
  ∧ get_student_progress student_address course_id st
    = (inr (PyDict (<["student" := PyStr student_address]>
                     (<["course" := PyStr course_id]>
                       (<["progress" := PyInt 100]> ∅)))), st)
  ∧ (∀ st', outcome (get_session session_id) st'
            = outcome (get_session session_id) st)
  ∧ (∀ st', outcome (get_student_progress student_address course_id) st'
            = outcome (get_student_progress student_address course_id) st).
Proof.
  split; [apply get_session_run|].
  split; [apply get_student_progress_run|].
  split; intros st'; reflexivity.
Qed.

(** C8. For every [session_id], [get_session] returns exactly the
    dictionary with [id] bound to the given id and [status] bound to
    [completed], and no other key; the answer for an id is the same
    before and after a session is recorded, so an id that was never
    recorded cannot be told from a completed session. *)
Theorem get_session_echoes_id st session_id :
  returns (get_session session_id) st
          (PyDict (<["id" := PyStr session_id]>
                    (<["status" := PyStr "completed"]> ∅)))
  ∧ dom (<["id" := PyStr session_id]>
          (<["status" := PyStr "completed"]> ∅) : dict)
    = ({["id"; "status"]} : gset string)
  ∧ getitem (PyDict (<["id" := PyStr session_id]>
                      (<["status" := PyStr "completed"]> ∅))) "id"
    = inr (PyStr session_id)
  ∧ getitem (PyDict (<["id" := PyStr session_id]>
                      (<["status" := PyStr "completed"]> ∅))) "status"
    = inr (PyStr "completed")
  ∧ ∀ payload source_secret,
      outcome (get_session session_id)
              (final (record_session str_of_dict payload source_secret) st)
      = outcome (get_session session_id) st.
Proof.
  split; [reflexivity|].
  split; [rewrite !dom_insert_L, dom_empty_L; set_solver|].
  unfold getitem. rewrite !session_dict_lookup.
  repeat split.
Qed.



(* ===================================================================== *)
(** * Where the source departs from the described design *)
(* ===================================================================== *)


(** C3, as the source has it.  For every session id, also one the
    ledger holds no record for, [get_session] does not fail with
    [NotFound] or with anything else: it returns exactly the dictionary
    binding [id] to the given id and [status] to [completed], with no
    other key, and leaves the state, standard output included, as it
    found it. *)
Theorem get_session_never_not_found st session_id :
  ¬ raises (get_session session_id) st "NotFound"
  ∧ (∀ cls, ¬ raises (get_session session_id) st cls)
  ∧ get_session session_id st
    = (inr (PyDict (<["id" := PyStr session_id]>
                     (<["status" := PyStr "completed"]> ∅))), st)
  ∧ dom (<["id" := PyStr session_id]>
          (<["status" := PyStr "completed"]> ∅) : dict)
    = ({["id"; "status"]} : gset string).
Proof.
  split; [eapply returns_not_raises; reflexivity|].
  split; [intros cls; eapply returns_not_raises; reflexivity|].
  split; [apply get_session_run|].
  rewrite !dom_insert_L, dom_empty_L. set_solver.
Qed.

(** C4, as the source has it.  For every student and course, also a
    pair without any recorded session, [get_student_progress] never
    raises and returns the dictionary binding [student] and [course] to
    the arguments and [progress] to 100: there is no [completion_ratio]
    entry, and the progress reported is 100, not zero. *)
Theorem get_student_progress_is_constant st student_address course_id :
  let summary := PyDict (<["student" := PyStr student_address]>
                          (<["course" := PyStr course_id]>
                            (<["progress" := PyInt 100]> ∅))) in
  returns (get_student_progress student_address course_id) st summary
  ∧ (∀ cls, ¬ raises (get_student_progress student_address course_id) st cls)
  ∧ getitem summary "progress" = inr (PyInt 100)
  ∧ getitem summary "completion_ratio"
    = inl (Raise "KeyError" "completion_ratio").
Proof.
  cbn zeta.
  split; [reflexivity|].
  split; [intros cls; eapply returns_not_raises; reflexivity|].
  unfold getitem. rewrite !progress_dict_lookup. by split.
Qed.

(** C5, as the source has it.  Every dictionary returned by
    [get_student_progress] has exactly the keys [student], [course] and
    [progress]; it has no [completion_ratio]; the only number in it is
    [progress], the integer 100, which lies between 0 and 100 and
    outside the interval from 0 to 1. *)
Theorem progress_summary_shape st student_address course_id :
  ∃ d : dict,
    returns (get_student_progress student_address course_id) st (PyDict d)
    ∧ dom d = ({["student"; "course"; "progress"]} : gset string)
    ∧ d !! "student" = Some (PyStr student_address)
    ∧ d !! "course" = Some (PyStr course_id)
    ∧ d !! "progress" = Some (PyInt 100)
    ∧ d !! "completion_ratio" = None
    ∧ (0 ≤ 100 ≤ 100)%Z
    ∧ ¬ Spec.unit_interval (PyInt 100).
Proof.
  eexists. split; [reflexivity|].
  split; [rewrite !dom_insert_L, dom_empty_L; set_solver|].
  rewrite !progress_dict_lookup.
  do 4 (split; [reflexivity|]).
  split; [lia|].
  intros [(n & [= <-] & Hn)|(x & [=] & _)]. lia.
Qed.

(** C7, as the source has it.  Construction validates nothing: it passes
    the URL to the [Server] constructor, keeps the handle, and stores the
    contract id and the passphrase as given.  It raises exactly when the
    [Server] constructor raises, and then that constructor's exception,
    none of its own; whether it succeeds does not depend on the contract
    id, the passphrase or the world, and it succeeds for every
    configuration whose URL the [Server] constructor accepts. *)
Theorem init_validates_nothing cid rpc_url passphrase w :
  __init__ Server cid rpc_url passphrase w
  = (match Server rpc_url with
     | inr s => inr (mkClient cid s passphrase)
     | inl e => inl e
     end,
     log_call (SdkCall cls_Server "__init__" [PyStr rpc_url]) w)
  ∧ (∀ cid' passphrase' w',
       succeeds (__init__ Server cid' rpc_url passphrase') w'
       = succeeds (__init__ Server cid rpc_url passphrase) w)
  ∧ (∀ s, Server rpc_url = inr s →
          returns (__init__ Server cid rpc_url passphrase) w
                  (mkClient cid s passphrase))
  ∧ (∀ e, Server rpc_url = inl e →
          outcome (__init__ Server cid rpc_url passphrase) w = inl e).
Proof.
  split; [apply init_run|].
  split.
  - intros cid' passphrase' w'. unfold succeeds, outcome.
    rewrite !init_run. cbn. by destruct (Server rpc_url).
  - split; intros x Hx; unfold returns, outcome;
      rewrite init_run, Hx; reflexivity.
Qed.

End Properties.

(* ===================================================================== *)
(** * Concrete runs against the described design *)
(* ===================================================================== *)









(** C3 fails on an id nobody recorded.  Right after construction nothing
    has been printed and no call has reached the ledger; on the empty
    ledger the described design answers [NotFound] for [session-404],
    while the source's [get_session] does not raise [NotFound] and
    returns a completed session. *)
Lemma unknown_session_counterexample :
  Spec.lookup_session ∅ "session-404" = inl (Raise "NotFound" "session-404")
  ∧ world demo_state = empty_world
  ∧ ¬ raises (get_session "session-404") demo_state "NotFound"
  ∧ returns (get_session "session-404") demo_state
            (PyDict (<["id" := PyStr "session-404"]>
                      (<["status" := PyStr "completed"]> ∅))).
Proof.
  split; [reflexivity|]. split; [reflexivity|].
  split; [|reflexivity].
  eapply returns_not_raises. reflexivity.
Qed.

(** C4 fails on a pair without sessions.  Right after construction, for
    student [GSTUDENT] and course [rust-101], the source returns no
    dictionary whose [completion_ratio] is 0, and not the zero-valued
    summary of the described design: it reports progress 100. *)
Lemma zero_sessions_counterexample :
  world demo_state = empty_world
  ∧ ¬ (∃ d : dict,
         returns (get_student_progress "GSTUDENT" "rust-101") demo_state
                 (PyDict d)
         ∧ d !! "completion_ratio" = Some (PyInt 0))
  ∧ ¬ returns (get_student_progress "GSTUDENT" "rust-101") demo_state
              (PyDict (Spec.zero_summary "GSTUDENT" "rust-101"))
  ∧ ∃ d : dict,
      returns (get_student_progress "GSTUDENT" "rust-101") demo_state
              (PyDict d)
      ∧ d !! "progress" = Some (PyInt 100).
Proof.
  split; [reflexivity|].
  split; [|split].
  - intros (d & Hrun & Hratio). unfold returns, outcome in Hrun.
    rewrite get_student_progress_run in Hrun. cbn in Hrun.
    injection Hrun as <-.
    rewrite progress_dict_lookup in Hratio. discriminate.
  - unfold returns, outcome. rewrite get_student_progress_run. cbn.
    intros Heq.
    apply (f_equal (λ r, match r with
                         | inr (PyDict d) => d !! "progress"
                         | _ => None
                         end)) in Heq.
    rewrite progress_dict_lookup in Heq. discriminate.
  - eexists. split; [reflexivity|].
    by rewrite progress_dict_lookup.
Qed.

(** C5 fails on the same call.  The dictionary returned has no
    [completion_ratio] at all, hence none in the interval from 0 to 1,
    and the one number it holds, [progress] = 100, is outside that
    interval. *)
Lemma completion_ratio_counterexample :
  ¬ (∃ (d : dict) v,
       returns (get_student_progress "GSTUDENT" "rust-101") demo_state
               (PyDict d)
       ∧ d !! "completion_ratio" = Some v
       ∧ Spec.unit_interval v)
  ∧ (∃ d : dict,
       returns (get_student_progress "GSTUDENT" "rust-101") demo_state
               (PyDict d)
       ∧ d !! "progress" = Some (PyInt 100)
       ∧ ¬ Spec.unit_interval (PyInt 100)).
Proof.
  split.
  - intros (d & v & Hrun & Hratio & _). unfold returns, outcome in Hrun.
    rewrite get_student_progress_run in Hrun. cbn in Hrun.
    injection Hrun as <-.
    rewrite progress_dict_lookup in Hratio. discriminate.
  - eexists. split; [reflexivity|].
    split; [by rewrite progress_dict_lookup|].
    intros [(n & [= <-] & Hn)|(x & [=] & _)]. lia.
Qed.

(** C7 fails on two configurations.  With the test network as the only
    reachable endpoint, the described design rejects with [ConfigError]
    both the test endpoint paired with the public network's passphrase
    and an endpoint that does not answer; the source's constructor, run
    with a [Server] that only keeps the URL, returns a client in both
    cases and raises no [ConfigError]. *)
Lemma construction_counterexample :
  Spec.validate_config testnet_only testnet_url pubnet_passphrase
  = Some (Raise "ConfigError" "network passphrase mismatch")
  ∧ returns (__init__ horizon_Server "C123" testnet_url pubnet_passphrase)
            empty_world
            (mkClient "C123" (mkHorizon testnet_url) pubnet_passphrase)
  ∧ Spec.validate_config testnet_only "https://unreachable.invalid"
                         testnet_passphrase
    = Some (Raise "ConfigError" "endpoint unreachable")
  ∧ ¬ raises (__init__ horizon_Server "C123" "https://unreachable.invalid"
                       testnet_passphrase)
             empty_world "ConfigError".
Proof.
  split; [by vm_compute|].
  split; [reflexivity|].
  split; [by vm_compute|].
  eapply returns_not_raises. reflexivity.
Qed.


(* ===================================================================== *)
(** * Sequences of calls *)
(* ===================================================================== *)

Section CallSequences.

Context {ServerT : Type}.
Variable str_of_dict : dict → exn + string.

Implicit Types (st : State ServerT) (cs : list call) (c : call).

(** What is written depends on the instance only. *)
Lemma written_self st st' c :
  self st' = self st →
  written str_of_dict st' c = written str_of_dict st c.
Proof.
  intros Hself. destruct c as [d secret| |]; [|done..].
  unfold written, recording_text. by rewrite Hself.
Qed.

Lemma printed_self st st' cs :
  self st' = self st →
  printed str_of_dict st' cs = printed str_of_dict st cs.
Proof.
  intros Hself. unfold printed.
  induction (completed str_of_dict cs) as [|c l IH]; [done|].
  cbn [foldr]. by rewrite IH, (written_self st st').
Qed.

Lemma printed_cons st c cs :
  printed str_of_dict st (c :: cs)
  = if renders str_of_dict c
    then written str_of_dict st c +:+ printed str_of_dict st cs
    else "".
Proof.
  unfold printed. cbn [completed]. by destruct (renders str_of_dict c).
Qed.

(** One call: the state it leaves, whether it returns, and that what it
    returns or raises is the same in every state. *)
Lemma invoke_final st c :
  final (invoke str_of_dict c) st
  = mkState (self st)
            (mkWorld (stdout (world st) +:+ written str_of_dict st c)
                     (sdk_calls (world st))).
Proof.
  unfold final. destruct st as [me [out log]].
  destruct c as [d secret|sid|addr course]; cbn [invoke written].
  - rewrite record_session_run.
    destruct (str_of_dict d); cbn; by rewrite ?text_app_nil_r.
  - rewrite get_session_run. cbn. by rewrite text_app_nil_r.
  - rewrite get_student_progress_run. cbn. by rewrite text_app_nil_r.
Qed.

Lemma invoke_succeeds st c :
  succeeds (invoke str_of_dict c) st = renders str_of_dict c.
Proof.
  unfold succeeds, outcome.
  destruct c as [d secret|sid|addr course]; cbn [invoke renders]; [|done..].
  rewrite record_session_run. by destruct (str_of_dict d).
Qed.



Lemma renders_false_written st c :
  renders str_of_dict c = false → written str_of_dict st c = "".
Proof.
  destruct c as [d secret| |]; cbn; [|done..]. by destruct (str_of_dict d).
Qed.

Lemma run_calls_cons st c cs :
  run_calls str_of_dict (c :: cs) st
  = match invoke str_of_dict c st with
    | (inr v, st1) =>
        match run_calls str_of_dict cs st1 with
        | (inr vs, st2) => (inr (v :: vs), st2)
        | (inl e, st2) => (inl e, st2)
        end
    | (inl e, st1) => (inl e, st1)
    end.
Proof.
  cbn [run_calls]. unfold mbind, Py_bind, mret, Py_ret.
  destruct (invoke str_of_dict c st) as [[e|v] st1]; [done|].
  by destruct (run_calls str_of_dict cs st1) as [[e|vs] st2].
Qed.

(** A whole sequence: the state it leaves. *)
Lemma run_calls_final cs : ∀ st,
  final (run_calls str_of_dict cs) st
  = mkState (self st)
            (mkWorld (stdout (world st) +:+ printed str_of_dict st cs)
                     (sdk_calls (world st))).
Proof.
  induction cs as [|c cs IH]; intros st.
  - destruct st as [me [out log]]. unfold final, printed. cbn.
    by rewrite text_app_nil_r.
  - unfold final. rewrite run_calls_cons, printed_cons.
    pose proof (invoke_final st c) as Hfin.
    pose proof (invoke_succeeds st c) as Hok.
    unfold final, succeeds, outcome in Hfin, Hok.
    destruct (invoke str_of_dict c st) as [[e|v] st1]; cbn [fst snd] in *.
    + rewrite <- Hok, text_app_nil_r. rewrite Hfin.
      by rewrite renders_false_written, text_app_nil_r.
    + rewrite <- Hok.
      specialize (IH st1). unfold final in IH.
      destruct (run_calls str_of_dict cs st1) as [[e|vs] st2];
        cbn [snd] in *; rewrite IH, Hfin; cbn [self world stdout sdk_calls];
        rewrite (printed_self st) by reflexivity;
        by rewrite text_app_assoc.
Qed.






(** X3. The secrets passed to [record_session] leave no trace: two
    sequences of calls that differ only in those secrets return the same
    values and leave the same state, standard output included. *)
Theorem secrets_leave_no_trace st cs cs' :
  map erase_secret cs = map erase_secret cs' →
  run_calls str_of_dict cs st = run_calls str_of_dict cs' st.
Proof.
  revert cs' st. induction cs as [|c cs IH]; intros [|c' cs'] st Heq;
    try discriminate; [done|].
  cbn [map] in Heq. injection Heq as Hc Hcs.
  rewrite !run_calls_cons.
  assert (Hinv : invoke str_of_dict c st = invoke str_of_dict c' st).
  { destruct c, c'; cbn in Hc; try discriminate;
      injection Hc as ?; subst; reflexivity. }
  rewrite Hinv.
  destruct (invoke str_of_dict c' st) as [[e|v] st1]; [done|].
  by rewrite (IH cs' st1 Hcs).
Qed.

Lemma printed_filter st cs :
  printed str_of_dict st (filter (λ c, is_record_session c = true) cs)
  = printed str_of_dict st cs.
Proof.
  induction cs as [|c cs IH]; [done|].
  destruct c; [rewrite filter_cons_True by done|
               rewrite filter_cons_False by done..];
    rewrite ?printed_cons; cbn [renders written]; by rewrite IH.
Qed.

(** X5. The state a sequence of calls leaves behind depends on its
    [record_session] calls only: two sequences with the same
    [record_session] calls in the same order leave the same state,
    however many [get_session] and [get_student_progress] calls are
    placed among them. *)
Theorem queries_commute_with_recording st cs cs' :
  filter (λ c, is_record_session c = true) cs
  = filter (λ c, is_record_session c = true) cs' →
  final (run_calls str_of_dict cs) st = final (run_calls str_of_dict cs') st.
Proof.
  intros Hrec. rewrite !run_calls_final.
  by rewrite <- (printed_filter st cs), Hrec, printed_filter.
Qed.

End CallSequences.



(** The secrets of two runs of the usage scenario differ; the runs do
    not. *)
Lemma secrets_leave_no_trace_witness :
  run_calls repr_dict
            [CallRecordSession demo_payload "SECRET-A";
             CallGetSession "tx_hash_placeholder"] demo_state
  = run_calls repr_dict
              [CallRecordSession demo_payload "SECRET-B";
               CallGetSession "tx_hash_placeholder"] demo_state.
Proof. apply secrets_leave_no_trace. reflexivity. Defined.

(** One recording, with a query before it or another after it. *)
Lemma queries_commute_with_recording_witness :
  final (run_calls repr_dict
           [CallGetSession "session-404";
            CallRecordSession demo_payload "SECRET"]) demo_state
  = final (run_calls repr_dict
             [CallRecordSession demo_payload "SECRET";
              CallGetStudentProgress "GSTUDENT" "rust-101"]) demo_state.
Proof. apply queries_commute_with_recording. reflexivity. Defined.

Section Lifetime.

Context {ServerT : Type}.
Variable Server : string → exn + ServerT.
Variable str_of_dict : dict → exn + string.


End Lifetime.

